(** * Realzen agent: routing edge, property search and cash-on-cash calculator

    A shallow embedding of [realzen_agent/graph.py] and
    [realzen_agent/utils/tools.py].  Python exceptions are values of
    [exception], a call that may raise returns a [result], dictionaries
    are [gmap]s keyed by strings, and Python floats are the kernel's
    binary64 numbers. *)

From Stdlib Require Import ZArith QArith Floats Reals Lra.
From stdpp Require Import gmap strings list.

Set Warnings "-register-all,-inexact-float".

(** ** Python values, exceptions and results *)

(** What a dictionary can be indexed with, as far as the two files go: a
    string, an int ([True] and [False] are the keys [1] and [0]), [None],
    or the slice [slice(None, stop, None)] that [d[:stop]] looks up. *)
Inductive key :=
  | KStr (s : string)
  | KInt (n : Z)
  | KNone
  | KSlice (stop : Z).
Coercion KStr : string >-> key.

#[export] Instance key_eq_dec : EqDecision key.
Proof. solve_decision. Defined.

#[export] Instance key_countable : Countable key :=
  inj_countable'
    (λ k, match k with
          | KStr s => inl s
          | KInt n => inr (inl n)
          | KNone => inr (inr (inl ()))
          | KSlice stop => inr (inr (inr stop))
          end)
    (λ x, match x with
          | inl s => KStr s
          | inr (inl n) => KInt n
          | inr (inr (inl _)) => KNone
          | inr (inr (inr stop)) => KSlice stop
          end)
    (λ k, match k with KStr _ | KInt _ | KNone | KSlice _ => eq_refl end).

(** The values that travel through the tools: keyword arguments typed
    [Any], and what [response.json()] decodes. *)
Inductive value :=
  | VNone
  | VBool (b : bool)
  | VInt (n : Z)
  | VFloat (x : float)
  | VStr (s : string)
  | VList (xs : list value)
  | VDict (d : gmap string value).

(** The exception classes the two files can raise, under their Python
    names.  [RequestException] stands for whatever [requests.get] raises
    when no response arrives; [JSONDecodeError] is what [response.json()]
    raises on a body that is not JSON. *)
Inductive exception :=
  | ValueError (msg : string)
  | IndexError
  | KeyError (key : key)
  | TypeError
  | ZeroDivisionError
  | RequestException (detail : string)
  | JSONDecodeError.

Inductive result (A : Type) :=
  | Return (a : A)
  | Raise (e : exception).
Arguments Return {A} a.
Arguments Raise {A} e.

#[export] Instance result_ret : MRet result := @Return.
#[export] Instance result_bind : MBind result := fun A B f r =>
  match r with
  | Return a => f a
  | Raise e => Raise e
  end.

(** ** graph.py: the edge after [call_model] *)

Record tool_call := ToolCall {
  tc_name : string;
  tc_args : gmap string value;
  tc_id : string
}.

(** The message classes of [langchain_core.messages] that a conversation
    holds; only [AIMessage] carries [tool_calls]. *)
Inductive message :=
  | HumanMessage (content : string)
  | SystemMessage (content : string)
  | AIMessage (content : string) (tool_calls : list tool_call)
  | ToolMessage (content : string) (tool_call_id : string).

(** [type(m).__name__] *)
Definition type_name (m : message) : string :=
  match m with
  | HumanMessage _ => "HumanMessage"
  | SystemMessage _ => "SystemMessage"
  | AIMessage _ _ => "AIMessage"
  | ToolMessage _ _ => "ToolMessage"
  end.

(** [isinstance(m, AIMessage)] *)
Definition is_AIMessage (m : message) : bool :=
  match m with
  | AIMessage _ _ => true
  | _ => false
  end.

(** Modelled from the spec: [realzen_agent/utils/state.py] is not among
    the sources.  Section 3 describes the conversation state as an ordered
    sequence of messages; [messages] is the only attribute the edge
    reads. *)
Record State := mkState {
  messages : list message
}.

(** [xs[-1]]: the last element, [IndexError] on an empty list. *)
Definition getitem_last {A} (xs : list A) : result A :=
  match last xs with
  | Some x => Return x
  | None => Raise IndexError
  end.

(** [not xs] for a list: true exactly when it is empty. *)
Definition list_falsy {A} (xs : list A) : bool :=
  match xs with
  | [] => true
  | _ :: _ => false
  end.

Definition route_model_output (state : State) : result string :=
  last_message ← getitem_last (messages state);
  match last_message with
  | AIMessage _ tool_calls =>
      (* If there is no tool call, then we finish *)
      if list_falsy tool_calls then Return "__end__"
      (* Otherwise we execute the requested actions *)
      else Return "tools"
  | _ =>
      Raise (ValueError ("Expected AIMessage in output edges, but got "
                           +:+ type_name last_message))
  end.

(** *** the graph around the edge *)

(** What a run of the compiled graph comes to; [OutOfSteps] when the
    step budget of the run is used up before the graph reaches its end. *)
Inductive run_outcome :=
  | Finished (state : State)
  | Raised (e : exception)
  | OutOfSteps.

Section Graph.
(** The two nodes the builder registers (lines 22-23).  [call_model] is
    defined in [realzen_agent/utils/nodes.py] and [tools] is langgraph's
    [ToolNode(TOOLS)]; neither is among the sources, so each is a
    parameter: a state in, a state or an exception out. *)
Variable call_model : State → result State.
Variable tools : State → result State.

(** The edges of the builder: from ["__start__"] to [call_model] (line
    27), from [call_model] to wherever [route_model_output] says (lines
    54-59), from [tools] back to [call_model] (line 63).  [steps] bounds
    the number of model calls.  The edge returns one of its two literals;
    any other name is no node of the graph. *)
Fixpoint run (steps : nat) (state : State) : run_outcome :=
  match steps with
  | O => OutOfSteps
  | S steps =>
      match call_model state with
      | Raise e => Raised e
      | Return state =>
          match route_model_output state with
          | Raise e => Raised e
          | Return next =>
              if String.eqb next "__end__" then Finished state
              else if String.eqb next "tools" then
                match tools state with
                | Raise e => Raised e
                | Return state => run steps state
                end
              else Raised (KeyError next)
          end
      end
  end.

(** The states handed to the [tools] node in the course of a run, in
    order. *)
Fixpoint tools_inputs (steps : nat) (state : State) : list State :=
  match steps with
  | O => []
  | S steps =>
      match call_model state with
      | Raise _ => []
      | Return state =>
          match route_model_output state with
          | Raise _ => []
          | Return next =>
              if String.eqb next "__end__" then []
              else if String.eqb next "tools" then
                state :: match tools state with
                         | Raise _ => []
                         | Return state => tools_inputs steps state
                         end
              else []
          end
      end
  end.
End Graph.

(** *** sample nodes *)

(** A model that answers at once, and one that asks for the calculator
    until a tool result is in the conversation. *)
Definition model_answers (state : State) : result State :=
  Return (mkState (messages state ++ [AIMessage "It is in Austin." []])).

Definition model_asks_once (state : State) : result State :=
  match last (messages state) with
  | Some (ToolMessage _ _) =>
      Return (mkState (messages state ++ [AIMessage "About 4%." []]))
  | _ =>
      Return (mkState (messages state
                ++ [AIMessage "" [ToolCall "calculate_cash_on_cash" ∅ "call_1"]]))
  end.

(** A model node that hands back a human message. *)
Definition model_echoes (state : State) : result State :=
  Return (mkState (messages state ++ [HumanMessage "echo"])).

Definition tools_reply (state : State) : result State :=
  Return (mkState (messages state ++ [ToolMessage "0.04" "call_1"])).

(** ** tools.py: the property search *)

(** What [types] is for a caller who names property types: the
    annotated tuple of tags, or a bare string (which is what
    [("isCondo")], with no comma, denotes).  Tags are strings. *)
Inductive iterable :=
  | Tuple (items : list string)
  | Str (s : string).

(** [for _type in types]: a tuple yields its items, a string yields its
    characters as one-character strings. *)
Definition iter (types : iterable) : list string :=
  match types with
  | Tuple items => items
  | Str s => (λ c, String c EmptyString) <$> String.list_ascii_of_string s
  end.

(** The default of the [types] parameter. *)
Definition default_types : iterable := Tuple ["isSingleFamily"].

(** The seven enumerated property-type tags of the docstring. *)
Definition PROPERTY_TYPE_TAGS : list string :=
  ["isSingleFamily"; "isMultiFamily"; "isCondo"; "isTownhouse";
   "isApartment"; "isLotLand"; "isManufactured"].

(** [{**a, **b}]: the entries of [b] win ([∪] on [gmap] keeps the left
    operand's entries). *)
Definition dict_merge `{Countable K} {V} (a b : gmap K V) : gmap K V := b ∪ a.

(** Lines 39-49: the flag dictionary after the loop. *)
Definition property_types (types : iterable) : gmap string value :=
  let property_types : gmap string value :=
    {[ "isSingleFamily" := VStr "false";
       "isMultiFamily" := VStr "false";
       "isCondo" := VStr "false";
       "isTownhouse" := VStr "false";
       "isApartment" := VStr "false";
       "isLotLand" := VStr "false";
       "isManufactured" := VStr "false" ]} in
  foldl (λ property_types _type, <[_type := VStr "true"]> property_types)
        property_types (iter types).

(** Lines 55-60: the query that is handed to [requests.get]. *)
Definition querystring (location : string) (types : iterable)
    (kwargs : gmap string value) : gmap string value :=
  dict_merge
    (dict_merge
       {[ "location" := VStr location; "output" := VStr "json" ]}
       (property_types types))
    kwargs.

(** The function's own parameters.  Python binds a keyword argument
    named after one of them to that parameter (or rejects the call), so
    [kwargs] holds none of these names. *)
Definition PARAMETERS : list string := ["location"; "config"; "types"].

Definition extra_keywords (kwargs : gmap string value) : Prop :=
  Forall (λ name, kwargs !! name = None) PARAMETERS.

(** *** the loop on any argument *)

(** The annotation of [types] is not enforced: a caller can pass any
    iterable, of any objects.  Of the argument the loop sees what
    iterating over it yields, and of each element only how it hashes:
    [None], a boolean, an int and a string can be dictionary keys, a
    list cannot. *)
Inductive element :=
  | ENone
  | EBool (b : bool)
  | EInt (n : Z)
  | EStr (s : string)
  | EList (items : list string).

(** [hash(e)], as a dictionary uses it: the key [e] is stored under.
    [True] and [1] are one key, as are [False] and [0]; hashing a list
    raises. *)
Definition hash_key (e : element) : result key :=
  match e with
  | ENone => Return KNone
  | EBool b => Return (KInt (if b then 1 else 0))
  | EInt n => Return (KInt n)
  | EStr s => Return (KStr s)
  | EList _ => Raise TypeError
  end.

#[export] Instance element_eq_dec : EqDecision element.
Proof. solve_decision. Defined.

Definition hashable (e : element) : bool :=
  match e with
  | EList _ => false
  | _ => true
  end.

(** Lines 48-49, [property_types[_type] = "true"] for each element in
    turn; the first element that cannot be hashed ends the loop. *)
Fixpoint set_flags (property_types : gmap key value)
    (elements : list element) : result (gmap key value) :=
  match elements with
  | [] => Return property_types
  | _type :: elements =>
      k ← hash_key _type;
      set_flags (<[k := VStr "true"]> property_types) elements
  end.

(** Lines 39-49 for whatever [types] yields. *)
Definition property_types_any (elements : list element)
    : result (gmap key value) :=
  let property_types : gmap key value :=
    {[ KStr "isSingleFamily" := VStr "false";
       KStr "isMultiFamily" := VStr "false";
       KStr "isCondo" := VStr "false";
       KStr "isTownhouse" := VStr "false";
       KStr "isApartment" := VStr "false";
       KStr "isLotLand" := VStr "false";
       KStr "isManufactured" := VStr "false" ]} in
  set_flags property_types elements.

(** Lines 39-60 for whatever [types] yields: the query, when the loop
    gets through.  The names of keyword arguments are strings. *)
Definition querystring_any (location : string) (elements : list element)
    (kwargs : gmap string value) : result (gmap key value) :=
  property_types ← property_types_any elements;
  Return
    (dict_merge
       (dict_merge
          {[ KStr "location" := VStr location; KStr "output" := VStr "json" ]}
          property_types)
       (kmap KStr kwargs)).

(** The keyword argument named by a key, if the key is a string and
    there is one. *)
Definition keyword (kwargs : gmap string value) (k : key) : option value :=
  match k with
  | KStr name => kwargs !! name
  | _ => None
  end.

(** Modelled from the spec: [realzen_agent/utils/configuration.py] is not
    among the sources.  Section 3 gives the configuration as a model
    identifier, a system prompt and a result-count limit;
    [Configuration.from_runnable_config] is taken to hand back this
    record. *)
Record Configuration := mkConfiguration {
  model : string;
  system_prompt : string;
  max_search_results : Z
}.

(** An HTTP response as the tool sees it: [json] is what
    [response.json()] decodes, [None] when the body is not JSON. *)
Record response := mkResponse {
  status_code : Z;
  json : option value
}.

Inductive http_outcome :=
  | Responded (r : response)
  | Failed (detail : string).

(** The surroundings of one call: the interpreter that runs it
    ([sys.version_info], major and minor), the process environment, and
    the network, the latter as the outcome of
    [requests.get(url, headers=..., params=...)]. *)
Record world := mkWorld {
  version_info : Z * Z;
  environ : gmap string string;
  requests_get : string → gmap string string → gmap string value → http_outcome
}.

(** [os.environ[key]] *)
Definition environ_getitem (w : world) (key : string) : result string :=
  match environ w !! key with
  | Some v => Return v
  | None => Raise (KeyError key)
  end.

Definition get (w : world) (url : string) (headers : gmap string string)
    (params : gmap string value) : result response :=
  match requests_get w url headers params with
  | Responded r => Return r
  | Failed detail => Raise (RequestException detail)
  end.

Definition response_json (r : response) : result value :=
  match json r with
  | Some v => Return v
  | None => Raise JSONDecodeError
  end.

(** [v[key]] for a string key: only a dict can be indexed by a string. *)
Definition getitem (v : value) (key : string) : result value :=
  match v with
  | VDict d =>
      match d !! key with
      | Some x => Return x
      | None => Raise (KeyError key)
      end
  | _ => Raise TypeError
  end.

(** [xs[:stop]] on a sequence: a negative [stop] counts from the end. *)
Definition slice_to {A} (xs : list A) (stop : Z) : list A :=
  if (0 <=? stop)%Z then take (Z.to_nat stop) xs
  else take (Z.to_nat (Z.of_nat (length xs) + stop)) xs.

(** [hash(slice(None, stop, None))] succeeds from Python 3.12 on; up to
    3.11 a slice cannot be hashed. *)
Definition slice_hashable (version_info : Z * Z) : bool :=
  let '(major, minor) := version_info in
  ((3 <? major) || ((major =? 3) && (12 <=? minor)))%Z.

(** [v[:stop]]: lists and strings are sliced.  A dict looks the slice up
    as a key: where a slice cannot be hashed that is a [TypeError], and
    where it can the lookup misses, the keys of a decoded JSON object
    being strings, which is a [KeyError] on the slice.  [None], booleans
    and numbers cannot be subscripted. *)
Definition getslice_to (version_info : Z * Z) (v : value) (stop : Z)
    : result value :=
  match v with
  | VList xs => Return (VList (slice_to xs stop))
  | VStr s =>
      Return (VStr (String.string_of_list_ascii
                      (slice_to (String.list_ascii_of_string s) stop)))
  | VDict _ =>
      if slice_hashable version_info then Raise (KeyError (KSlice stop))
      else Raise TypeError
  | _ => Raise TypeError
  end.

Definition search_url : string := "https://zillow56.p.rapidapi.com/search".

Definition search_headers (key : string) : gmap string string :=
  {[ "x-rapidapi-key" := key; "x-rapidapi-host" := "zillow56.p.rapidapi.com" ]}.

Definition search_for_properties_by_location (w : world) (location : string)
    (config : Configuration) (types : iterable) (kwargs : gmap string value)
    : result value :=
  let limit := max_search_results config in
  let url := search_url in
  let querystring := querystring location types kwargs in
  key ← environ_getitem w "RAPIDAPI_KEY";
  let headers := search_headers key in
  response ← get w url headers querystring;
  data ← response_json response;
  results ← getitem data "results";
  getslice_to (version_info w) results limit.

(** *** sample surroundings *)

(** The key is set and the upstream answers with two listings more than
    any limit used below. *)
Definition world_listings : world :=
  mkWorld (3, 11)%Z {[ "RAPIDAPI_KEY" := "valid-key" ]}
    (λ _ _ _, Responded (mkResponse 200 (Some (VDict
       {[ "results" := VList [VStr "12 Elm St"; VStr "3 Oak Ave";
                              VStr "9 Pine Rd"; VStr "40 Lake Dr"];
          "totalResultCount" := VInt 4 ]})))).


(** The key is accepted and the upstream answers 200 with the listings
    under another name. *)
Definition world_renamed_field : world :=
  mkWorld (3, 11)%Z {[ "RAPIDAPI_KEY" := "valid-key" ]}
    (λ _ _ _, Responded (mkResponse 200 (Some (VDict
       {[ "listings" := VList [VStr "12 Elm St"] ]})))).


(** The same listings under an error status. *)
Definition world_listings_error_status : world :=
  mkWorld (3, 11)%Z {[ "RAPIDAPI_KEY" := "valid-key" ]}
    (λ _ _ _, Responded (mkResponse 500 (Some (VDict
       {[ "results" := VList [VStr "12 Elm St"; VStr "3 Oak Ave";
                              VStr "9 Pine Rd"; VStr "40 Lake Dr"];
          "totalResultCount" := VInt 4 ]})))).

(** The upstream answers with the listings grouped by town, a JSON
    object under [results] and no array. *)
Definition world_grouped_listings (version_info : Z * Z) : world :=
  mkWorld version_info {[ "RAPIDAPI_KEY" := "valid-key" ]}
    (λ _ _ _, Responded (mkResponse 200 (Some (VDict
       {[ "results" := VDict {[ "Austin" := VList [VStr "12 Elm St"] ]} ]})))).

Definition config_limit (k : Z) : Configuration :=
  mkConfiguration "model-id" "system prompt" k.

(** ** tools.py: the cash-on-cash calculator *)

(** The arithmetic of Python's [float], as an interface: the calculator
    is written once against it and read both in binary64, which is what
    the interpreter runs, and in exact real arithmetic, which is what
    the formula of section 4.4 means on paper.  [lit] is a numeric
    literal (an int operand is converted on the way), [fis_zero] the
    test behind [ZeroDivisionError], [fpow x n] the power [x ** n] for
    an int exponent [n >= 0]. *)
Class PyFloat (F : Type) := {
  lit : Q → F;
  fadd : F → F → F;
  fsub : F → F → F;
  fmul : F → F → F;
  fdiv : F → F → F;
  fis_zero : F → bool;
  fpow : F → N → F
}.
Arguments lit {F _} q%_Q.

Declare Scope py_scope.
Delimit Scope py_scope with py.
Notation "x + y" := (fadd x y) : py_scope.
Notation "x - y" := (fsub x y) : py_scope.
Notation "x * y" := (fmul x y) : py_scope.
Notation "x / y" := (fdiv x y) : py_scope.
Notation "x ** n" := (fpow x n) (at level 30, right associativity) : py_scope.

(** [x / y] as Python evaluates it: a zero divisor raises. *)
Definition truediv `{PyFloat F} (x y : F) : result F :=
  if fis_zero y then Raise ZeroDivisionError else Return (x / y)%py.

(** *** binary64 *)

(** An int as a float; exact for the magnitudes below 2^53 used here. *)
Definition Z2float (z : Z) : float :=
  match z with
  | Z0 => PrimFloat.zero
  | Zpos _ => PrimFloat.of_uint63 (Uint63.of_Z z)
  | Zneg p => PrimFloat.opp (PrimFloat.of_uint63 (Uint63.of_Z (Zpos p)))
  end.

(** A decimal literal [a / 10^k] denotes the double nearest to it, which
    is what one correctly rounded division of [a] by [10^k] yields. *)
Definition float_lit (q : Q) : float :=
  PrimFloat.div (Z2float (Qnum q)) (Z2float (Zpos (Qden q))).

(** [x ^ n] on positive integers by repeated squaring. *)
Fixpoint pos_power (x n : positive) : positive :=
  match n with
  | xH => x
  | xO n' => Pos.square (pos_power x n')
  | xI n' => Pos.mul x (Pos.square (pos_power x n'))
  end.

(** [x ** n] for a float [x] and an int [n >= 0].  CPython hands the
    operation to the C library's [pow]; it is taken here to be correctly
    rounded: the exact power of the mantissa and exponent of [x],
    rounded once to nearest-even. *)
Definition float_pow (x : float) (n : N) : float :=
  match n with
  | N0 => PrimFloat.one
  | Npos p =>
      match Prim2SF x with
      | S754_finite s m e =>
          SF2Prim (binary_normalize prec emax
                     (cond_Zopp (s && Z.odd (Zpos p)) (Zpos (pos_power m p)))
                     (e * Zpos p) false)
      | S754_zero s => SF2Prim (S754_zero (s && Z.odd (Zpos p)))
      | S754_infinity s => SF2Prim (S754_infinity (s && Z.odd (Zpos p)))
      | S754_nan => PrimFloat.nan
      end
  end.

#[export] Instance binary64 : PyFloat float := {|
  lit := float_lit;
  fadd := PrimFloat.add;
  fsub := PrimFloat.sub;
  fmul := PrimFloat.mul;
  fdiv := PrimFloat.div;
  fis_zero := PrimFloat.is_zero;
  fpow := float_pow
|}.

(** *** exact arithmetic *)

#[export] Instance exact : PyFloat R := {|
  lit := Q2R;
  fadd := Rplus;
  fsub := Rminus;
  fmul := Rmult;
  fdiv := Rdiv;
  fis_zero := λ x, if Req_dec_T x 0 then true else false;
  fpow := λ x n, pow x (N.to_nat n)
|}.

(** *** the tool *)

(** The default of the [down_payment] parameter. *)
Definition default_down_payment `{PyFloat F} : F := lit 0.2.

Definition calculate_cash_on_cash `{PyFloat F}
    (home_price rent tax_assessed_value down_payment : F)
    (kwargs : gmap string value) : result F :=
  (* National average 6.5% *)
  interest_rate ← truediv (lit 0.065) (lit 12);
  (* 30-year fixed-rate mortgage *)
  let loan_term := 30%Z in
  let down_payment_amount := (home_price * down_payment)%py in
  let loan_amount := (home_price - down_payment_amount)%py in
  (* National average 0.9% *)
  let annual_property_tax := (tax_assessed_value * lit 0.009)%py in
  quotient ←
    truediv
      (loan_amount
       * (interest_rate * (lit 1 + interest_rate) ** Z.to_N (loan_term * 12)))%py
      ((lit 1 + interest_rate) ** Z.to_N (loan_term * 12) - lit 1)%py;
  let annual_mortgage_payment := (quotient * lit 12)%py in
  (* 10% of the monthly rent *)
  let management_fee := (rent * lit 0.1 * lit 12)%py in
  let cash_flow := (rent * lit 12)%py in
  truediv
    (cash_flow - annual_property_tax - annual_mortgage_payment - management_fee)%py
    down_payment_amount.

(** The closed form of section 4.4 of the specification, steps 1 to 7 as
    they are written there (each [/] is the plain quotient). *)
Definition cash_on_cash_formula `{PyFloat F}
    (home_price rent tax_assessed_value down_payment : F) : F :=
  let down_payment_amount := (home_price * down_payment)%py in
  let loan_amount := (home_price - down_payment_amount)%py in
  let monthly_rate := (lit 0.065 / lit 12)%py in
  let n := 360%N in
  let annual_mortgage_payment :=
    (loan_amount * monthly_rate * (lit 1 + monthly_rate) ** n
     / ((lit 1 + monthly_rate) ** n - lit 1) * lit 12)%py in
  let annual_property_tax := (tax_assessed_value * lit 0.009)%py in
  let annual_management_fee := (rent * lit 12 * lit 0.1)%py in
  ((rent * lit 12 - annual_property_tax - annual_mortgage_payment
    - annual_management_fee) / down_payment_amount)%py.

(** * Properties *)

(** ** The edge after [call_model] *)

Example route_final_answer :
  route_model_output
    (mkState [HumanMessage "3 bed in Austin?"; AIMessage "Here they are." []])
  = Return "__end__".
Proof. reflexivity. Qed.

Example route_tool_request :
  route_model_output
    (mkState [HumanMessage "3 bed in Austin?";
              AIMessage "" [ToolCall "calculate_cash_on_cash" ∅ "call_1"]])
  = Return "tools".
Proof. reflexivity. Qed.

Example route_empty_conversation :
  route_model_output (mkState []) = Raise IndexError.
Proof. reflexivity. Qed.

Lemma route_model_output_last state m :
  last (messages state) = Some m →
  route_model_output state =
    match m with
    | AIMessage _ tool_calls =>
        if list_falsy tool_calls then Return "__end__" else Return "tools"
    | _ => Raise (ValueError ("Expected AIMessage in output edges, but got "
                                +:+ type_name m))
    end.
Proof.
  intros Hlast. unfold route_model_output, getitem_last.
  rewrite Hlast. reflexivity.
Qed.

(** C1.  When the last message of the conversation is an assistant
    message, [route_model_output] returns ["__end__"] if and only if that
    message's tool-call list is empty, and returns ["tools"] whenever the
    list is not empty. *)
Theorem route_model_output_end_iff_no_tool_calls state content tool_calls :
  last (messages state) = Some (AIMessage content tool_calls) →
  (route_model_output state = Return "__end__" ↔ tool_calls = []) ∧
  (tool_calls ≠ [] → route_model_output state = Return "tools").
Proof.
  intros Hlast. rewrite (route_model_output_last _ _ Hlast).
  destruct tool_calls as [|tc tcs]; simpl.
  - split; [tauto | congruence].
  - split; [split; discriminate | reflexivity].
Qed.

Lemma route_model_output_end_iff_no_tool_calls_witness :
  (route_model_output (mkState [HumanMessage "hi"; AIMessage "done" []])
     = Return "__end__" ↔ @nil tool_call = []) ∧
  (@nil tool_call ≠ [] →
   route_model_output (mkState [HumanMessage "hi"; AIMessage "done" []])
     = Return "tools").
Proof.
  apply (route_model_output_end_iff_no_tool_calls
           (mkState [HumanMessage "hi"; AIMessage "done" []]) "done" []).
  reflexivity.
Defined.

(** C6.  When the last message is not an assistant message the edge
    raises: Python's [ValueError] is the error the specification calls
    MalformedModelOutput.  Neither ["tools"] nor ["__end__"] is
    returned. *)
Theorem route_model_output_rejects_non_assistant state m :
  last (messages state) = Some m →
  is_AIMessage m = false →
  route_model_output state =
    Raise (ValueError ("Expected AIMessage in output edges, but got "
                         +:+ type_name m)) ∧
  route_model_output state ≠ Return "tools" ∧
  route_model_output state ≠ Return "__end__".
Proof.
  intros Hlast Hnot. rewrite (route_model_output_last _ _ Hlast).
  destruct m; try discriminate Hnot; repeat split; discriminate.
Qed.

Lemma route_model_output_rejects_non_assistant_witness :
  route_model_output (mkState [AIMessage "" []; ToolMessage "0.12" "call_1"])
    = Raise (ValueError "Expected AIMessage in output edges, but got ToolMessage") ∧
  route_model_output (mkState [AIMessage "" []; ToolMessage "0.12" "call_1"])
    ≠ Return "tools" ∧
  route_model_output (mkState [AIMessage "" []; ToolMessage "0.12" "call_1"])
    ≠ Return "__end__".
Proof.
  apply (route_model_output_rejects_non_assistant
           (mkState [AIMessage "" []; ToolMessage "0.12" "call_1"])
           (ToolMessage "0.12" "call_1")); reflexivity.
Defined.

(** ** The property search: the query *)

Example querystring_default :
  querystring "Austin, TX" default_types ∅ =
  {[ "location" := VStr "Austin, TX"; "output" := VStr "json";
     "isSingleFamily" := VStr "true";
     "isMultiFamily" := VStr "false";
     "isCondo" := VStr "false";
     "isTownhouse" := VStr "false";
     "isApartment" := VStr "false";
     "isLotLand" := VStr "false";
     "isManufactured" := VStr "false" ]}.
Proof. apply map_eq. intros k. vm_compute. reflexivity. Qed.

Lemma foldl_insert_true_lookup (tags : list string) (d : gmap string value) k :
  foldl (λ d t, <[t := VStr "true"]> d) d tags !! k =
  if decide (k ∈ tags) then Some (VStr "true") else d !! k.
Proof.
  revert d. induction tags as [|t tags IH]; intros d; cbn [foldl].
  - rewrite decide_False; [done | apply not_elem_of_nil].
  - rewrite IH. destruct (decide (k ∈ tags)) as [Hin|Hnin].
    + rewrite decide_True; [done | by right].
    + destruct (decide (k = t)) as [->|Hne].
      * rewrite lookup_insert_eq, decide_True; [done | by left].
      * rewrite lookup_insert_ne by done.
        rewrite decide_False; [done |]. by intros [?|?]%elem_of_cons.
Qed.

(** What the flag dictionary holds for a key: ["true"] for an element of
    [types], else ["false"] for one of the seven tags, else nothing. *)
Lemma property_types_lookup types k :
  property_types types !! k =
  if decide (k ∈ iter types) then Some (VStr "true")
  else if decide (k ∈ PROPERTY_TYPE_TAGS) then Some (VStr "false")
  else None.
Proof.
  unfold property_types. rewrite foldl_insert_true_lookup.
  destruct (decide (k ∈ iter types)); [done |].
  unfold PROPERTY_TYPE_TAGS. case_decide as Hin.
  - repeat (apply elem_of_cons in Hin as [->|Hin]; [by vm_compute |]).
    by apply elem_of_nil in Hin.
  - repeat (apply not_elem_of_cons in Hin as [? Hin]).
    repeat (rewrite lookup_insert_ne by congruence).
    first [apply lookup_empty | apply lookup_singleton_ne; congruence].
Qed.

(** What the query holds for a key: the keyword argument of that name
    when there is one, else the flag, else [location] and [output]. *)
Lemma querystring_lookup location types kwargs k :
  querystring location types kwargs !! k =
  match kwargs !! k with
  | Some v => Some v
  | None =>
      match property_types types !! k with
      | Some v => Some v
      | None =>
          ({[ "location" := VStr location; "output" := VStr "json" ]}
             : gmap string value) !! k
      end
  end.
Proof.
  unfold querystring, dict_merge. rewrite !lookup_union.
  set (base := ({[ "location" := VStr location; "output" := VStr "json" ]}
                  : gmap string value)).
  destruct (kwargs !! k), (property_types types !! k), (base !! k); done.
Qed.

(** A keyword argument named after a flag replaces the computed flag:
    with the default [types] and [isCondo="true"] among the extra
    keywords, the query carries ["isCondo": "true"] although that tag was
    not requested.  This is where C2, read for every call, fails. *)
Lemma querystring_flag_overridden_by_keyword :
  "isCondo" ∈ PROPERTY_TYPE_TAGS ∧
  ("isCondo" ∉ iter default_types) ∧
  querystring "Austin, TX" default_types {[ "isCondo" := VStr "true" ]}
    !! "isCondo" = Some (VStr "true").
Proof. repeat split; compute_done. Qed.

(** C2, amended.  For every [types] and every one of the seven tags that
    no extra keyword argument is named after, the query holds ["true"]
    for the tag when it is among the requested types and ["false"] when
    it is not. *)
Theorem querystring_flags_as_requested location types kwargs tag :
  tag ∈ PROPERTY_TYPE_TAGS →
  kwargs !! tag = None →
  querystring location types kwargs !! tag =
    Some (VStr (if bool_decide (tag ∈ iter types) then "true" else "false")).
Proof.
  intros Htag Hkw.
  rewrite querystring_lookup, Hkw, property_types_lookup.
  case_bool_decide.
  - by rewrite decide_True.
  - rewrite decide_False by done. by rewrite decide_True.
Qed.

Lemma querystring_flags_as_requested_witness :
  querystring "Austin, TX" (Tuple ["isCondo"; "isTownhouse"])
    {[ "limit" := VInt 5 ]} !! "isSingleFamily" = Some (VStr "false") ∧
  querystring "Austin, TX" (Tuple ["isCondo"; "isTownhouse"])
    {[ "limit" := VInt 5 ]} !! "isTownhouse" = Some (VStr "true").
Proof.
  split.
  - apply (querystring_flags_as_requested "Austin, TX"
             (Tuple ["isCondo"; "isTownhouse"]) {[ "limit" := VInt 5 ]}
             "isSingleFamily");
      compute_done.
  - apply (querystring_flags_as_requested "Austin, TX"
             (Tuple ["isCondo"; "isTownhouse"]) {[ "limit" := VInt 5 ]}
             "isTownhouse");
      compute_done.
Defined.

(** C8.  The extra keyword arguments are merged into the query after the
    computed flags.  A keyword cannot be named [location]: Python binds
    that name to the parameter.  For every other key the caller's value
    is what the query holds under it, in place of what was computed
    there - the ["true"] or ["false"] of one of the seven flags, the
    ["json"] of [output] - and every key no keyword is named after holds
    what the query without keywords holds; the location stays the one
    searched for (or the ["true"] of a type called ["location"]). *)
Theorem querystring_keyword_wins location types kwargs :
  extra_keywords kwargs →
  (∀ k v, kwargs !! k = Some v →
     querystring location types kwargs !! k = Some v) ∧
  (∀ k, kwargs !! k = None →
     querystring location types kwargs !! k
     = querystring location types ∅ !! k) ∧
  (∀ tag, tag ∈ PROPERTY_TYPE_TAGS →
     querystring location types ∅ !! tag =
       Some (VStr (if bool_decide (tag ∈ iter types)
                   then "true" else "false"))) ∧
  querystring location types ∅ !! "output" =
    Some (VStr (if bool_decide ("output" ∈ iter types)
                then "true" else "json")) ∧
  querystring location types kwargs !! "location" =
    Some (VStr (if bool_decide ("location" ∈ iter types)
                then "true" else location)).
Proof.
  intros [Hlocation _]%Forall_cons. repeat split.
  - intros k v Hkw. by rewrite querystring_lookup, Hkw.
  - intros k Hkw. by rewrite !querystring_lookup, Hkw, lookup_empty.
  - intros tag Htag.
    rewrite querystring_lookup, lookup_empty, property_types_lookup.
    case_bool_decide.
    + by rewrite decide_True.
    + rewrite decide_False by done. by rewrite decide_True.
  - rewrite querystring_lookup, lookup_empty, property_types_lookup.
    case_bool_decide.
    + by rewrite decide_True.
    + rewrite decide_False by done. by rewrite decide_False by compute_done.
  - rewrite querystring_lookup, Hlocation, property_types_lookup.
    case_bool_decide.
    + by rewrite decide_True.
    + rewrite decide_False by done. by rewrite decide_False by compute_done.
Qed.

Lemma querystring_keyword_wins_witness :
  querystring "Austin, TX" default_types
    {[ "isSingleFamily" := VStr "false"; "output" := VStr "xml" ]}
    !! "isSingleFamily" = Some (VStr "false") ∧
  querystring "Austin, TX" default_types ∅ !! "isSingleFamily"
    = Some (VStr "true") ∧
  querystring "Austin, TX" default_types
    {[ "isSingleFamily" := VStr "false"; "output" := VStr "xml" ]}
    !! "output" = Some (VStr "xml") ∧
  querystring "Austin, TX" default_types ∅ !! "output" = Some (VStr "json") ∧
  querystring "Austin, TX" default_types
    {[ "isSingleFamily" := VStr "false"; "output" := VStr "xml" ]}
    !! "isCondo" = Some (VStr "false") ∧
  querystring "Austin, TX" default_types
    {[ "isSingleFamily" := VStr "false"; "output" := VStr "xml" ]}
    !! "location" = Some (VStr "Austin, TX").
Proof.
  destruct (querystring_keyword_wins "Austin, TX" default_types
              {[ "isSingleFamily" := VStr "false"; "output" := VStr "xml" ]})
    as (Hwins & Hkept & Hflags & Houtput & Hlocation);
    [repeat constructor |].
  split; [apply Hwins; compute_done |].
  split; [apply (Hflags "isSingleFamily"); compute_done |].
  split; [apply Hwins; compute_done |].
  split; [exact Houtput |].
  split; [| exact Hlocation].
  rewrite Hkept by compute_done. apply (Hflags "isCondo"). compute_done.
Defined.

(** The loop takes whatever [types] yields as keys. *)
Example property_types_unknown_tag :
  property_types (Tuple ["isCastle"]) !! "isCastle" = Some (VStr "true").
Proof. by vm_compute. Qed.

Example iter_bare_string : iter (Str "isCondo") = ["i"; "s"; "C"; "o"; "n"; "d"; "o"].
Proof. reflexivity. Qed.

Example property_types_bare_string :
  property_types (Str "isCondo") !! "C" = Some (VStr "true") ∧
  property_types (Str "isCondo") !! "isCondo" = Some (VStr "false").
Proof. split; by vm_compute. Qed.

(** *** any argument *)

Example property_types_any_mixed :
  property_types_any [EStr "isCondo"; EInt 7; EBool true; EInt 1; ENone]
  = Return ({[ KStr "isSingleFamily" := VStr "false";
               KStr "isMultiFamily" := VStr "false";
               KStr "isCondo" := VStr "true";
               KStr "isTownhouse" := VStr "false";
               KStr "isApartment" := VStr "false";
               KStr "isLotLand" := VStr "false";
               KStr "isManufactured" := VStr "false";
               KInt 7 := VStr "true"; KInt 1 := VStr "true";
               KNone := VStr "true" ]} : gmap key value).
Proof. vm_compute. reflexivity. Qed.

#[export] Instance KStr_inj : Inj (=) (=) KStr.
Proof. by intros s1 s2 [= ->]. Qed.

Lemma hash_key_hashable e :
  hashable e = true → ∃ k, hash_key e = Return k.
Proof. destruct e; simpl; intros Hhash; try discriminate; by eexists. Qed.

Lemma hash_key_unhashable e :
  hashable e = false → hash_key e = Raise TypeError.
Proof. by destruct e. Qed.

(** The loop gets through exactly when every element can be hashed. *)
Lemma set_flags_returns d elements :
  forallb hashable elements = true → ∃ flags, set_flags d elements = Return flags.
Proof.
  revert d. induction elements as [|e elements IH]; intros d; simpl.
  - by eexists.
  - intros [He Hrest]%andb_prop.
    destruct (hash_key_hashable e He) as [k ->]. simpl. apply IH, Hrest.
Qed.

Lemma set_flags_raises d elements :
  forallb hashable elements = false → set_flags d elements = Raise TypeError.
Proof.
  revert d. induction elements as [|e elements IH]; intros d; simpl; [done |].
  destruct (hashable e) eqn:He; simpl.
  - intros Hrest. destruct (hash_key_hashable e He) as [k ->]. simpl.
    by apply IH.
  - intros _. by rewrite (hash_key_unhashable e He).
Qed.

(** A flag that is ["true"] stays so to the end of the loop. *)
Lemma set_flags_keeps_true d elements flags k :
  d !! k = Some (VStr "true") →
  set_flags d elements = Return flags →
  flags !! k = Some (VStr "true").
Proof.
  revert d. induction elements as [|e elements IH]; intros d Hk; simpl.
  - by intros [= <-].
  - destruct (hash_key e) as [k'|]; simpl; [| done].
    apply IH. destruct (decide (k' = k)) as [->|Hne].
    + by rewrite lookup_insert_eq.
    + by rewrite lookup_insert_ne.
Qed.

Lemma set_flags_element d elements flags t k :
  t ∈ elements →
  hash_key t = Return k →
  set_flags d elements = Return flags →
  flags !! k = Some (VStr "true").
Proof.
  revert d. induction elements as [|e elements IH]; intros d Hin Hkey; simpl.
  - by apply elem_of_nil in Hin.
  - apply elem_of_cons in Hin as [<-|Hin].
    + rewrite Hkey. simpl. apply set_flags_keeps_true.
      by rewrite lookup_insert_eq.
    + destruct (hash_key e) as [k'|]; simpl; [| done]. by apply IH.
Qed.

(** On a tuple of strings or a bare string the loop builds
    [property_types], and the query is [querystring]. *)
Lemma set_flags_strings (d : gmap string value) (tags : list string) :
  set_flags (kmap KStr d) (EStr <$> tags)
  = Return (kmap KStr (foldl (λ d t, <[t := VStr "true"]> d) d tags)).
Proof.
  revert d. induction tags as [|t tags IH]; intros d; simpl; [done |].
  rewrite <- kmap_insert by apply _. apply IH.
Qed.

Lemma property_types_any_strings types :
  property_types_any (EStr <$> iter types)
  = Return (kmap KStr (property_types types)).
Proof.
  unfold property_types_any, property_types.
  rewrite <- set_flags_strings. reflexivity.
Qed.

Lemma querystring_any_strings location types kwargs :
  querystring_any location (EStr <$> iter types) kwargs
  = Return (kmap KStr (querystring location types kwargs)).
Proof.
  unfold querystring_any, querystring, dict_merge.
  rewrite property_types_any_strings. simpl. f_equal.
  rewrite !kmap_union by apply _.
  by rewrite kmap_insert, kmap_singleton by apply _.
Qed.

(** Where C9, read for every iterable and for the query of every call,
    fails.  An element of [types] that an extra keyword argument is also
    named after does not reach the query as ["true"]: the keyword's
    value is sent.  And an element that cannot be hashed - a list among
    the tags - makes the loop raise [TypeError]. *)
Lemma querystring_requested_type_overridden :
  "isCondo" ∈ iter (Tuple ["isCondo"]) ∧
  querystring "Austin, TX" (Tuple ["isCondo"]) {[ "isCondo" := VStr "false" ]}
    !! "isCondo" = Some (VStr "false") ∧
  property_types_any [EStr "isCondo"; EList ["isTownhouse"; "isLotLand"]]
    = Raise TypeError.
Proof. repeat split; compute_done. Qed.

(** C9, amended.  Whatever iterable is passed as [types], as long as all
    it yields can be hashed, the loop raises nothing and for every
    element [t], enumerated tag or not, the flag dictionary holds
    ["true"] under [t]; the query holds ["true"] under [t] as well unless
    [t] is a string that an extra keyword argument is named after, whose
    value is then sent.  Nothing is validated.  When some element cannot
    be hashed the loop raises [TypeError]. *)
Theorem types_elements_become_true_flags (elements : list element)
    (t : element) :
  t ∈ elements →
  if forallb hashable elements then
    ∃ flags k,
      property_types_any elements = Return flags ∧
      hash_key t = Return k ∧
      flags !! k = Some (VStr "true") ∧
      ∀ location kwargs, ∃ query,
        querystring_any location elements kwargs = Return query ∧
        query !! k = Some (default (VStr "true") (keyword kwargs k))
  else
    property_types_any elements = Raise TypeError ∧
    ∀ location kwargs,
      querystring_any location elements kwargs = Raise TypeError.
Proof.
  intros Hin. destruct (forallb hashable elements) eqn:Hall.
  - assert (∃ flags, property_types_any elements = Return flags)
      as [flags Hany] by apply set_flags_returns, Hall.
    assert (hashable t = true) as Ht.
    { rewrite forallb_forall in Hall. apply Hall. by apply list_elem_of_In. }
    destruct (hash_key_hashable t Ht) as [k Hk].
    assert (flags !! k = Some (VStr "true")) as Htrue
      by exact (set_flags_element _ _ _ _ _ Hin Hk Hany).
    exists flags, k. split; [done |]. split; [done |]. split; [done |].
    intros location kwargs. eexists. unfold querystring_any.
    rewrite Hany. simpl. split; [done |].
    unfold dict_merge. rewrite !lookup_union, Htrue.
    assert (kmap KStr kwargs !! k = keyword kwargs k) as ->.
    { destruct k as [name| | |]; simpl.
      - apply lookup_kmap, _.
      - by apply lookup_kmap_None; [apply _ |].
      - by apply lookup_kmap_None; [apply _ |].
      - by apply lookup_kmap_None; [apply _ |]. }
    generalize (({[ KStr "location" := VStr location;
                    KStr "output" := VStr "json" ]} : gmap key value) !! k).
    intros base. by destruct (keyword kwargs k), base.
  - assert (property_types_any elements = Raise TypeError) as Hany
      by apply set_flags_raises, Hall.
    split; [done |]. intros location kwargs.
    unfold querystring_any. by rewrite Hany.
Qed.

Lemma types_elements_become_true_flags_witness :
  ∃ flags k,
    property_types_any (EStr <$> iter (Str "isCondo")) = Return flags ∧
    hash_key (EStr "C") = Return k ∧
    flags !! k = Some (VStr "true") ∧
    ∀ location kwargs, ∃ query,
      querystring_any location (EStr <$> iter (Str "isCondo")) kwargs
        = Return query ∧
      query !! k = Some (default (VStr "true") (keyword kwargs k)).
Proof.
  refine (types_elements_become_true_flags
            (EStr <$> iter (Str "isCondo")) (EStr "C") _).
  compute_done.
Defined.

(** ** The property search: results and errors *)

Section Search.
Context (w : world) (location : string) (config : Configuration)
        (types : iterable) (kwargs : gmap string value).

Local Abbreviation search :=
  (search_for_properties_by_location w location config types kwargs).
Local Abbreviation limit := (max_search_results config).
Local Abbreviation sent key :=
  (requests_get w search_url (search_headers key)
     (querystring location types kwargs)).



(** Once a response has arrived the outcome is a function of its
    decoded body and of the limit alone: the status code is never
    looked at. *)
Lemma search_responded key r :
  environ w !! "RAPIDAPI_KEY" = Some key →
  sent key = Responded r →
  search =
    (data ← response_json r;
     results ← getitem data "results";
     getslice_to (version_info w) results limit).
Proof.
  intros Henv Hget.
  unfold search_for_properties_by_location, environ_getitem, get.
  rewrite Henv. simpl. by rewrite Hget.
Qed.

Lemma slice_to_take {A} (xs : list A) (k : Z) :
  (0 ≤ k)%Z → slice_to xs k = take (Z.to_nat k) xs.
Proof.
  intros Hk. unfold slice_to.
  by destruct (Z.leb_spec 0 k); [| lia].
Qed.

(** C4.  With a limit [k >= 0] configured and an upstream JSON object
    whose [results] array has at least [k] entries, the search returns
    the first [k] entries of that array, in their order, and exactly
    [k] of them. *)
Theorem search_returns_first_k key r d results :
  environ w !! "RAPIDAPI_KEY" = Some key →
  requests_get w search_url (search_headers key)
    (querystring location types kwargs) = Responded r →
  json r = Some (VDict d) →
  d !! "results" = Some (VList results) →
  (0 ≤ max_search_results config ≤ Z.of_nat (length results))%Z →
  search_for_properties_by_location w location config types kwargs
    = Return (VList (take (Z.to_nat (max_search_results config)) results)) ∧
  Z.of_nat (length (take (Z.to_nat (max_search_results config)) results))
    = max_search_results config.
Proof.
  intros Henv Hget Hjson Hres [Hk0 Hkm].
  rewrite (search_responded _ _ Henv Hget).
  unfold response_json. rewrite Hjson. simpl. rewrite Hres. simpl.
  rewrite slice_to_take by done. split; [done |].
  rewrite length_take. lia.
Qed.

End Search.

Lemma search_returns_first_k_witness :
  search_for_properties_by_location world_listings "Austin, TX"
    (config_limit 2) default_types ∅
  = Return (VList [VStr "12 Elm St"; VStr "3 Oak Ave"]).
Proof.
  refine (proj1 (search_returns_first_k world_listings "Austin, TX"
                   (config_limit 2) default_types ∅ "valid-key"
                   (mkResponse 200 (Some (VDict
                      {[ "results" := VList [VStr "12 Elm St"; VStr "3 Oak Ave";
                                             VStr "9 Pine Rd"; VStr "40 Lake Dr"];
                         "totalResultCount" := VInt 4 ]})))
                   _ [VStr "12 Elm St"; VStr "3 Oak Ave";
                      VStr "9 Pine Rd"; VStr "40 Lake Dr"]
                   _ _ _ _ _)).
  - reflexivity.
  - reflexivity.
  - reflexivity.
  - reflexivity.
  - simpl. lia.
Defined.

(** A negative limit is a slice like any other: it drops entries from
    the end. *)
Example search_negative_limit :
  search_for_properties_by_location world_listings "Austin, TX"
    (config_limit (-1)) default_types ∅
  = Return (VList [VStr "12 Elm St"; VStr "3 Oak Ave"; VStr "9 Pine Rd"]).
Proof. reflexivity. Qed.


(** A [results] entry that is a JSON object: what the slice raises
    depends on the interpreter. *)
Example search_grouped_listings :
  search_for_properties_by_location (world_grouped_listings (3, 11)%Z)
    "Austin, TX" (config_limit 10) default_types ∅ = Raise TypeError ∧
  search_for_properties_by_location (world_grouped_listings (3, 12)%Z)
    "Austin, TX" (config_limit 10) default_types ∅
    = Raise (KeyError (KSlice 10)).
Proof. split; reflexivity. Qed.

(** ** The calculator *)


(** *** binary64 *)

(** The two constants every call computes first. *)
Lemma interest_rate_binary64 :
  truediv (F := float) (lit 0.065) (lit 12)
  = Return 0x1.62fc962fc9630p-8%float.
Proof. vm_compute. reflexivity. Qed.

(** The one place where the power is evaluated. *)
Lemma growth_binary64 :
  ((lit 1 + 0x1.62fc962fc9630p-8%float) ** 360%N)%py
  = 0x1.bf799e357fee3p+2%float.
Proof. vm_compute. reflexivity. Qed.

Lemma pos_power_correct (x n : positive) :
  Zpos (pos_power x n) = (Zpos x ^ Zpos n)%Z.
Proof.
  induction n as [n IH|n IH|]; cbn [pos_power].
  - rewrite Pos2Z.inj_mul, Pos.square_spec, Pos2Z.inj_mul, IH, Pos2Z.inj_xI.
    replace (2 * Z.pos n + 1)%Z with (Z.pos n + Z.pos n + 1)%Z by lia.
    rewrite !Z.pow_add_r, Z.pow_1_r by lia. ring.
  - rewrite Pos.square_spec, Pos2Z.inj_mul, IH, Pos2Z.inj_xO.
    replace (2 * Z.pos n)%Z with (Z.pos n + Z.pos n)%Z by lia.
    by rewrite Z.pow_add_r by lia.
  - by rewrite Z.pow_1_r.
Qed.

Lemma bind_Return {A B} (f : A → result B) (a : A) :
  (x ← Return a; f x) = f a.
Proof. reflexivity. Qed.

Lemma truediv_zero `{PyFloat F} (x y : F) :
  fis_zero y = true → truediv x y = Raise ZeroDivisionError.
Proof. intros Hy. unfold truediv. by rewrite Hy. Qed.

Lemma truediv_nonzero `{PyFloat F} (x y : F) :
  fis_zero y = false → truediv x y = Return (x / y)%py.
Proof. intros Hy. unfold truediv. by rewrite Hy. Qed.

(** The calculator in binary64, with its two constants evaluated. *)
Lemma calculate_cash_on_cash_binary64
    (home_price rent tax_assessed_value down_payment : float) kwargs :
  calculate_cash_on_cash home_price rent tax_assessed_value down_payment kwargs
  = let interest_rate := 0x1.62fc962fc9630p-8%float in
    let growth := 0x1.bf799e357fee3p+2%float in
    let down_payment_amount := (home_price * down_payment)%float in
    let loan_amount := (home_price - down_payment_amount)%float in
    let annual_property_tax := (tax_assessed_value * 0.009)%float in
    let annual_mortgage_payment :=
      (loan_amount * (interest_rate * growth) / (growth - 1) * 12)%float in
    let management_fee := (rent * 0.1 * 12)%float in
    let cash_flow := (rent * 12)%float in
    truediv
      (cash_flow - annual_property_tax - annual_mortgage_payment - management_fee)%float
      down_payment_amount.
Proof.
  unfold calculate_cash_on_cash.
  rewrite interest_rate_binary64, bind_Return. cbv zeta.
  change (Z.to_N (30 * 12)) with 360%N. rewrite growth_binary64.
  rewrite truediv_nonzero by (vm_compute; reflexivity).
  rewrite bind_Return. reflexivity.
Qed.

(** The formula of section 4.4 in binary64, with the same constants. *)
Lemma cash_on_cash_formula_binary64
    (home_price rent tax_assessed_value down_payment : float) :
  cash_on_cash_formula home_price rent tax_assessed_value down_payment
  = let monthly_rate := 0x1.62fc962fc9630p-8%float in
    let growth := 0x1.bf799e357fee3p+2%float in
    let down_payment_amount := (home_price * down_payment)%float in
    let loan_amount := (home_price - down_payment_amount)%float in
    let annual_mortgage_payment :=
      (loan_amount * monthly_rate * growth / (growth - 1) * 12)%float in
    let annual_property_tax := (tax_assessed_value * 0.009)%float in
    let annual_management_fee := (rent * 12 * 0.1)%float in
    ((rent * 12 - annual_property_tax - annual_mortgage_payment
      - annual_management_fee) / down_payment_amount)%float.
Proof.
  unfold cash_on_cash_formula. cbv zeta.
  change (lit 0.065 / lit 12)%py with 0x1.62fc962fc9630p-8%float.
  rewrite growth_binary64. reflexivity.
Qed.

(** The scenario of section 8. *)
Example calculate_cash_on_cash_scenario :
  calculate_cash_on_cash (F := float)
    500000%float 3000%float 400000%float default_down_payment ∅
  = Return (-0x1.f862eaea79668p-7)%float.
Proof. rewrite calculate_cash_on_cash_binary64. vm_compute. reflexivity. Qed.

(** C10.  The calculator is deterministic: in binary64 its outcome is
    the value of one fixed expression of [home_price], [rent],
    [tax_assessed_value] and [down_payment] - the monthly rate, the
    growth factor over 360 months and what is formed of them alone are
    constants - or [ZeroDivisionError] when the down-payment amount is
    zero.  Two calls on the same four arguments therefore return the same
    float, bit for bit (or raise the same error), and the extra keyword
    arguments, which are never read, change nothing. *)
Theorem calculate_cash_on_cash_ignores_kwargs
    (home_price rent tax_assessed_value down_payment : float)
    (kwargs kwargs' : gmap string value) :
  calculate_cash_on_cash home_price rent tax_assessed_value down_payment kwargs
  = calculate_cash_on_cash home_price rent tax_assessed_value down_payment kwargs' ∧
  calculate_cash_on_cash home_price rent tax_assessed_value down_payment kwargs
  = (let amount := (home_price * down_payment)%float in
     if PrimFloat.is_zero amount then Raise ZeroDivisionError
     else Return ((rent * 12 - tax_assessed_value * 0.009
                   - (home_price - amount) * 0x1.363fd78140ce2p-5
                     / 0x1.7f799e357fee3p+2 * 12
                   - rent * 0.1 * 12) / amount)%float).
Proof.
  rewrite !calculate_cash_on_cash_binary64. cbv zeta. split; [done |].
  unfold truediv. cbn [fis_zero fdiv binary64].
  change (0x1.62fc962fc9630p-8 * 0x1.bf799e357fee3p+2)%float
    with 0x1.363fd78140ce2p-5%float.
  change (0x1.bf799e357fee3p+2 - 1)%float with 0x1.7f799e357fee3p+2%float.
  reflexivity.
Qed.

Lemma calculate_cash_on_cash_ignores_kwargs_witness :
  calculate_cash_on_cash (F := float)
    500000%float 3000%float 400000%float 0.2%float
    {[ "interest_rate" := VFloat 0.03%float; "loan_term" := VInt 15 ]}
  = calculate_cash_on_cash (F := float)
      500000%float 3000%float 400000%float 0.2%float ∅ ∧
  calculate_cash_on_cash (F := float)
    500000%float 3000%float 400000%float 0.2%float
    {[ "interest_rate" := VFloat 0.03%float; "loan_term" := VInt 15 ]}
  = Return (-0x1.f862eaea79668p-7)%float.
Proof.
  destruct (calculate_cash_on_cash_ignores_kwargs
              500000%float 3000%float 400000%float 0.2%float
              {[ "interest_rate" := VFloat 0.03%float; "loan_term" := VInt 15 ]}
              ∅) as [Hsame Hvalue].
  split; [exact Hsame |]. rewrite Hvalue. vm_compute. reflexivity.
Defined.

(** Section 4.4, "Error": a down-payment amount that compares equal to
    zero makes the final division raise. *)
Lemma calculate_cash_on_cash_zero_amount
    (home_price rent tax_assessed_value down_payment : float) kwargs :
  PrimFloat.is_zero (home_price * down_payment)%float = true →
  calculate_cash_on_cash home_price rent tax_assessed_value down_payment kwargs
  = Raise ZeroDivisionError.
Proof.
  intros Hzero. rewrite calculate_cash_on_cash_binary64. cbv zeta.
  by apply truediv_zero.
Qed.

(** A finite price times a zero down payment is a zero amount; an
    infinite or NaN price gives NaN instead, which is not zero. *)
Lemma finite_times_zero (x z : float) :
  PrimFloat.is_finite x = true →
  PrimFloat.is_zero z = true →
  PrimFloat.is_zero (x * z)%float = true.
Proof.
  unfold PrimFloat.is_finite, PrimFloat.is_nan, PrimFloat.is_infinity,
    PrimFloat.is_zero.
  rewrite !FloatAxioms.eqb_spec, abs_spec, mul_spec.
  change (Prim2SF PrimFloat.zero) with (S754_zero false).
  change (Prim2SF PrimFloat.infinity) with (S754_infinity false).
  destruct (Prim2SF x) as [sx| sx | |sx mx ex],
           (Prim2SF z) as [sz| sz | |sz mz ez];
    intros Hfinite Hzero;
    try (by destruct sz); try (by destruct sx); try done.
  all: by destruct sx, sz.
Qed.

(** An infinite or NaN price times a zero down payment is NaN. *)
Lemma nonfinite_times_zero (x z : float) :
  PrimFloat.is_finite x = false →
  PrimFloat.is_zero z = true →
  Prim2SF (x * z)%float = S754_nan.
Proof.
  unfold PrimFloat.is_finite, PrimFloat.is_nan, PrimFloat.is_infinity,
    PrimFloat.is_zero.
  rewrite !FloatAxioms.eqb_spec, abs_spec, mul_spec.
  change (Prim2SF PrimFloat.zero) with (S754_zero false).
  change (Prim2SF PrimFloat.infinity) with (S754_infinity false).
  destruct (Prim2SF x) as [sx| sx | |sx mx ex],
           (Prim2SF z) as [sz| sz | |sz mz ez];
    simpl; intros Hfinite Hzero; try done.
  all: try (by destruct sx, sz).
  all: unfold SFeqb, SFcompare in Hfinite, Hzero.
  all: try (by destruct sz).
  rewrite Z.compare_refl in Hfinite.
  change (PosDef.Pos.compare_cont Eq mx mx) with (Pos.compare mx mx) in Hfinite.
  rewrite Pos.compare_refl in Hfinite. by destruct sx.
Qed.

Lemma is_nan_Prim2SF (x : float) :
  PrimFloat.is_nan x = true → Prim2SF x = S754_nan.
Proof.
  unfold PrimFloat.is_nan. rewrite FloatAxioms.eqb_spec. unfold SFeqb.
  destruct (Prim2SF x) as [s|s| |s m e]; simpl; try done.
  - by destruct s.
  - rewrite Z.compare_refl, Pos.compare_cont_refl. by destruct s.
Qed.

Lemma nan_mul (x y : float) :
  Prim2SF x = S754_nan ∨ Prim2SF y = S754_nan →
  Prim2SF (x * y)%float = S754_nan.
Proof.
  rewrite mul_spec. unfold SF64mul.
  intros [-> | ->]; [done |]. by destruct (Prim2SF x).
Qed.

Lemma nan_sub (x y : float) :
  Prim2SF x = S754_nan ∨ Prim2SF y = S754_nan →
  Prim2SF (x - y)%float = S754_nan.
Proof.
  rewrite sub_spec. unfold SF64sub.
  intros [-> | ->]; [done |]. by destruct (Prim2SF x).
Qed.

Lemma nan_div (x y : float) :
  Prim2SF x = S754_nan ∨ Prim2SF y = S754_nan →
  Prim2SF (x / y)%float = S754_nan.
Proof.
  rewrite div_spec. unfold SF64div.
  intros [-> | ->]; [done |]. by destruct (Prim2SF x).
Qed.

Lemma nan_is_not_zero (x : float) :
  Prim2SF x = S754_nan → PrimFloat.is_zero x = false.
Proof.
  intros Hnan. unfold PrimFloat.is_zero.
  by rewrite FloatAxioms.eqb_spec, Hnan.
Qed.

(** A down-payment amount that is NaN makes the calculator return NaN:
    NaN does not compare equal to zero, so nothing is raised. *)
Lemma calculate_cash_on_cash_nan_amount
    (home_price rent tax_assessed_value down_payment : float) kwargs :
  Prim2SF (home_price * down_payment)%float = S754_nan →
  calculate_cash_on_cash home_price rent tax_assessed_value down_payment kwargs
  = Return PrimFloat.nan.
Proof.
  intros Hnan. rewrite calculate_cash_on_cash_binary64. cbv zeta.
  rewrite (truediv_nonzero (F := float)) by by apply nan_is_not_zero.
  f_equal. apply Prim2SF_inj. change (Prim2SF PrimFloat.nan) with S754_nan.
  cbn [fdiv binary64]. apply nan_div. by right.
Qed.

(** Where C5, read for every call with [down_payment = 0], fails: an
    infinite price makes the down-payment amount [inf * 0], which is NaN
    and not zero, and the call returns NaN instead of raising. *)
Lemma calculate_cash_on_cash_zero_down_payment_infinite_price :
  PrimFloat.is_zero 0%float = true ∧
  calculate_cash_on_cash (F := float)
    PrimFloat.infinity 3000%float 400000%float 0%float ∅
  = Return PrimFloat.nan.
Proof.
  split; [reflexivity |].
  rewrite calculate_cash_on_cash_binary64. vm_compute. reflexivity.
Qed.

(** C5, amended.  A call with [down_payment = 0] (of either sign) and a
    finite [home_price] has the down-payment amount
    [home_price * down_payment] equal to zero and raises Python's
    [ZeroDivisionError] - the error the specification calls
    DivisionByZeroError - whatever the other arguments are.  With an
    infinite or NaN [home_price] the amount is NaN and the call returns
    NaN. *)
Theorem calculate_cash_on_cash_zero_down_payment
    (home_price rent tax_assessed_value down_payment : float) kwargs :
  PrimFloat.is_zero down_payment = true →
  calculate_cash_on_cash home_price rent tax_assessed_value down_payment kwargs
  = if PrimFloat.is_finite home_price then Raise ZeroDivisionError
    else Return PrimFloat.nan.
Proof.
  intros Hzero. destruct (PrimFloat.is_finite home_price) eqn:Hfinite.
  - apply calculate_cash_on_cash_zero_amount. by apply finite_times_zero.
  - apply calculate_cash_on_cash_nan_amount. by apply nonfinite_times_zero.
Qed.

Lemma calculate_cash_on_cash_zero_down_payment_witness :
  calculate_cash_on_cash (F := float)
    500000%float 3000%float 400000%float 0%float ∅
  = Raise ZeroDivisionError.
Proof.
  apply (calculate_cash_on_cash_zero_down_payment
           500000%float 3000%float 400000%float 0%float ∅).
  reflexivity.
Defined.

(** Where C3 fails in binary64.  The code multiplies the loan amount by
    the already formed product [interest_rate * growth] and takes the
    management fee as [rent * 0.1 * 12]; the formula of section 4.4
    multiplies from the left and takes [rent * 12 * 0.1].  The roundings
    differ, and so do the last bits of the two results. *)
Lemma calculate_cash_on_cash_is_not_the_formula_binary64 :
  calculate_cash_on_cash (F := float)
    652000%float 3831%float 369000%float 0.2%float ∅
  = Return (-0x1.7b181247bd69ap-7)%float ∧
  cash_on_cash_formula (F := float)
    652000%float 3831%float 369000%float 0.2%float
  = (-0x1.7b181247bd696p-7)%float.
Proof.
  rewrite calculate_cash_on_cash_binary64, cash_on_cash_formula_binary64.
  split; vm_compute; reflexivity.
Qed.

(** *** exact arithmetic *)

Lemma fis_zero_exact_false (x : R) : x ≠ 0%R → fis_zero (F := R) x = false.
Proof. intros Hx. simpl. by destruct (Req_dec_T x 0). Qed.

Lemma growth_exact_gt_1 (n : nat) :
  (0 < n)%nat → (1 < (1 + 0.065 / 12) ^ n)%R.
Proof. intros Hn. apply Rlt_pow_R1; [lra | done]. Qed.

(** C3, amended.  Read in exact real arithmetic, for positive inputs and
    a down payment strictly between 0 and 1, the calculator returns the
    closed form of section 4.4.  (In binary64 the code evaluates the same
    expression with its own grouping of the products, and the last bits
    can differ from the formula evaluated as it is written.) *)
Theorem calculate_cash_on_cash_exact
    (home_price rent tax_assessed_value down_payment : R) kwargs :
  (0 < home_price)%R → (0 < rent)%R → (0 < tax_assessed_value)%R →
  (0 < down_payment < 1)%R →
  calculate_cash_on_cash home_price rent tax_assessed_value down_payment kwargs
  = Return (cash_on_cash_formula home_price rent tax_assessed_value down_payment) ∧
  cash_on_cash_formula home_price rent tax_assessed_value down_payment
  = (let down_payment_amount := home_price * down_payment in
     let loan_amount := home_price - down_payment_amount in
     let monthly_rate := 0.065 / 12 in
     (rent * 12 - tax_assessed_value * 0.009
      - loan_amount * monthly_rate * (1 + monthly_rate) ^ 360
        / ((1 + monthly_rate) ^ 360 - 1) * 12
      - rent * 12 * 0.1) / down_payment_amount)%R.
Proof.
  intros Hprice Hrent Htax [Hdown0 Hdown1].
  assert (Q2R 12 = 12%R) as H12 by (unfold Q2R; simpl; lra).
  assert (Q2R 1 = 1%R) as H1 by (unfold Q2R; simpl; lra).
  assert (N.to_nat (Z.to_N (30 * 12)) = 360%nat) as Hn by reflexivity.
  assert (N.to_nat 360 = 360%nat) as Hn' by reflexivity.
  pose proof (growth_exact_gt_1 360 ltac:(lia)) as Hgrowth.
  split.
  - unfold calculate_cash_on_cash, cash_on_cash_formula.
    cbn [lit exact]. rewrite H12, H1.
    rewrite (truediv_nonzero (F := R)) by (apply fis_zero_exact_false; lra).
    rewrite bind_Return. cbv zeta.
    cbn [lit fadd fsub fmul fdiv fpow exact].
    rewrite Hn, Hn'.
    set (growth := ((1 + 0.065 / 12) ^ 360)%R) in *.
    rewrite (truediv_nonzero (F := R)) by (apply fis_zero_exact_false; lra).
    rewrite bind_Return.
    rewrite (truediv_nonzero (F := R)) by (apply fis_zero_exact_false; nra).
    f_equal. cbn [fdiv exact]. unfold Rdiv. ring.
  - unfold cash_on_cash_formula. cbv zeta.
    cbn [lit fadd fsub fmul fdiv fpow exact].
    rewrite Hn', H12, H1. reflexivity.
Qed.

Lemma calculate_cash_on_cash_exact_witness :
  calculate_cash_on_cash (F := R) 500000%R 3000%R 400000%R 0.2%R ∅
  = Return (cash_on_cash_formula (F := R) 500000%R 3000%R 400000%R 0.2%R).
Proof.
  apply (calculate_cash_on_cash_exact 500000%R 3000%R 400000%R 0.2%R ∅); lra.
Defined.

(** * Further properties *)

(** ** The edge and the graph *)

(** The outcomes of the edge, all of them: [IndexError] exactly on an
    empty conversation, otherwise a [ValueError] or one of the two node
    names. *)
Theorem route_model_output_outcomes state :
  (route_model_output state = Raise IndexError ↔ messages state = []) ∧
  (∀ next, route_model_output state = Return next →
     next = "__end__" ∨ next = "tools") ∧
  (∀ e, route_model_output state = Raise e →
     e = IndexError ∨ ∃ msg, e = ValueError msg).
Proof.
  destruct (last (messages state)) as [m|] eqn:Hlast.
  - rewrite (route_model_output_last _ _ Hlast).
    assert (messages state ≠ []) as Hne by (intros Hnil; by rewrite Hnil in Hlast).
    split; [| split].
    + destruct m as [| |? [|]|]; by split.
    + intros next. destruct m as [| |? [|]|]; simpl; intros [= <-]; tauto.
    + intros e. destruct m as [| |? [|]|]; simpl; intros [= <-]; eauto.
  - apply last_None in Hlast.
    unfold route_model_output, getitem_last. rewrite Hlast. simpl.
    split; [done |]. split; [done |]. intros e [= <-]. by left.
Qed.

Section GraphProperties.
Context (call_model tools : State → result State).

(** Whenever a run finishes, the conversation it hands back ends with an
    assistant message that asks for no tool. *)
Theorem run_finished_ends_with_answer steps state final :
  run call_model tools steps state = Finished final →
  ∃ content, last (messages final) = Some (AIMessage content []).
Proof.
  revert state. induction steps as [|steps IH]; intros state; simpl; [done |].
  destruct (call_model state) as [state1|]; [| done].
  destruct (last (messages state1)) as [m|] eqn:Hlast.
  - rewrite (route_model_output_last _ _ Hlast).
    destruct m as [| |content [|tc tcs]|]; simpl; try done.
    + intros [= <-]. eauto.
    + destruct (tools state1) as [state2|]; [apply IH | done].
  - apply last_None in Hlast.
    unfold route_model_output, getitem_last. by rewrite Hlast.
Qed.

(** The [tools] node only ever runs on a conversation whose last message
    is an assistant message with at least one tool call. *)
Theorem tools_inputs_request_tools steps state :
  Forall (λ input, ∃ content tool_calls,
            last (messages input) = Some (AIMessage content tool_calls) ∧
            tool_calls ≠ [])
         (tools_inputs call_model tools steps state).
Proof.
  revert state. induction steps as [|steps IH]; intros state; simpl; [done |].
  destruct (call_model state) as [state1|]; [| done].
  destruct (last (messages state1)) as [m|] eqn:Hlast.
  - rewrite (route_model_output_last _ _ Hlast).
    destruct m as [| |content [|tc tcs]|]; simpl; try done.
    constructor; [by eauto |].
    destruct (tools state1) as [state2|]; [apply IH | done].
  - apply last_None in Hlast.
    unfold route_model_output, getitem_last. by rewrite Hlast.
Qed.

(** A model response without tool calls ends the run there: the state
    the model returned is the result, and [tools] is not run at all. *)
Theorem run_answer_ends_the_run steps state answered content :
  call_model state = Return answered →
  last (messages answered) = Some (AIMessage content []) →
  run call_model tools (S steps) state = Finished answered ∧
  tools_inputs call_model tools (S steps) state = [].
Proof.
  intros Hmodel Hlast. simpl. rewrite Hmodel.
  by rewrite (route_model_output_last _ _ Hlast).
Qed.

(** A model node that hands back anything but an assistant message stops
    the run with the edge's [ValueError] before [tools] is run. *)
Theorem run_malformed_output_stops steps state returned m :
  call_model state = Return returned →
  last (messages returned) = Some m →
  is_AIMessage m = false →
  run call_model tools (S steps) state =
    Raised (ValueError ("Expected AIMessage in output edges, but got "
                          +:+ type_name m)) ∧
  tools_inputs call_model tools (S steps) state = [].
Proof.
  intros Hmodel Hlast Hnot. simpl. rewrite Hmodel.
  rewrite (route_model_output_last _ _ Hlast).
  by destruct m.
Qed.
End GraphProperties.

Lemma run_finished_ends_with_answer_witness :
  ∃ content,
    last (messages (mkState [HumanMessage "cash on cash?";
                             AIMessage "" [ToolCall "calculate_cash_on_cash" ∅ "call_1"];
                             ToolMessage "0.04" "call_1";
                             AIMessage "About 4%." []]))
    = Some (AIMessage content []).
Proof.
  apply (run_finished_ends_with_answer model_asks_once tools_reply 2
           (mkState [HumanMessage "cash on cash?"])).
  reflexivity.
Defined.

Lemma run_answer_ends_the_run_witness :
  run model_answers tools_reply 1 (mkState [HumanMessage "where?"])
    = Finished (mkState [HumanMessage "where?"; AIMessage "It is in Austin." []]) ∧
  tools_inputs model_answers tools_reply 1 (mkState [HumanMessage "where?"]) = [].
Proof.
  apply (run_answer_ends_the_run model_answers tools_reply 0
           (mkState [HumanMessage "where?"])
           (mkState [HumanMessage "where?"; AIMessage "It is in Austin." []])
           "It is in Austin.");
    reflexivity.
Defined.

Lemma run_malformed_output_stops_witness :
  run model_echoes tools_reply 1 (mkState [HumanMessage "where?"])
    = Raised (ValueError "Expected AIMessage in output edges, but got HumanMessage") ∧
  tools_inputs model_echoes tools_reply 1 (mkState [HumanMessage "where?"]) = [].
Proof.
  apply (run_malformed_output_stops model_echoes tools_reply 0
           (mkState [HumanMessage "where?"])
           (mkState [HumanMessage "where?"; HumanMessage "echo"])
           (HumanMessage "echo"));
    reflexivity.
Defined.

(** ** The query *)

Lemma iter_Str_length s t : t ∈ iter (Str s) → String.length t = 1.
Proof.
  simpl. intros (c & -> & _)%list_elem_of_fmap. reflexivity.
Qed.

Lemma tag_not_in_bare_string s tag :
  tag ∈ PROPERTY_TYPE_TAGS → tag ∉ iter (Str s).
Proof.
  intros Htag Hin%iter_Str_length. unfold PROPERTY_TYPE_TAGS in Htag.
  repeat (apply elem_of_cons in Htag as [->|Htag]; [discriminate Hin |]).
  by apply elem_of_nil in Htag.
Qed.

(** Passing a bare string as [types] - [types="isCondo"], or
    [types=("isCondo")] with the comma of the one-element tuple left
    out - selects no property type: the loop goes over the characters,
    so whatever the string, each of the seven flags goes out as
    ["false"] unless an extra keyword argument is named after it. *)
Theorem bare_string_selects_no_type s location kwargs tag :
  tag ∈ PROPERTY_TYPE_TAGS →
  kwargs !! tag = None →
  querystring location (Str s) kwargs !! tag = Some (VStr "false").
Proof.
  intros Htag Hkw.
  rewrite querystring_lookup, Hkw, property_types_lookup.
  rewrite decide_False by by apply tag_not_in_bare_string.
  by rewrite decide_True.
Qed.

Lemma bare_string_selects_no_type_witness :
  querystring "Austin, TX" (Str "isCondo") ∅ !! "isCondo"
    = Some (VStr "false").
Proof.
  apply (bare_string_selects_no_type "isCondo" "Austin, TX" ∅ "isCondo");
    compute_done.
Defined.

(** The keys of the query: [location], [output] and the seven flags are
    always there, and every further key is an element of [types] or the
    name of an extra keyword argument. *)
Theorem querystring_keys location types kwargs k :
  is_Some (querystring location types kwargs !! k) ↔
  k = "location" ∨ k = "output" ∨ k ∈ PROPERTY_TYPE_TAGS ∨
  k ∈ iter types ∨ is_Some (kwargs !! k).
Proof.
  rewrite querystring_lookup, property_types_lookup.
  destruct (kwargs !! k) as [v|] eqn:Hkw.
  { split; [intros _; do 4 right; by eexists | by eexists]. }
  destruct (decide (k ∈ iter types)) as [Hin|Hnin].
  { split; [tauto | by eexists]. }
  destruct (decide (k ∈ PROPERTY_TYPE_TAGS)) as [Htag|Hntag].
  { split; [tauto | by eexists]. }
  destruct (decide (k = "location")) as [->|Hloc].
  { split; [tauto | by eexists]. }
  destruct (decide (k = "output")) as [->|Hout].
  { split; [tauto | by eexists]. }
  rewrite lookup_insert_ne, lookup_singleton_ne by congruence.
  split; [by intros [? ?] |].
  intros [?|[?|[?|[?|[? ?]]]]]; done.
Qed.

(** The flags, and with them the query, depend on which tags [types]
    holds, not on their order or on how often one is repeated. *)
Theorem querystring_order_irrelevant types1 types2 :
  (∀ t, t ∈ iter types1 ↔ t ∈ iter types2) →
  ∀ location kwargs,
    querystring location types1 kwargs = querystring location types2 kwargs.
Proof.
  intros Hsame location kwargs. apply map_eq. intros k.
  rewrite !querystring_lookup, !property_types_lookup.
  destruct (decide (k ∈ iter types1)) as [Hin|Hnin],
           (decide (k ∈ iter types2)) as [Hin'|Hnin']; try done.
  - by apply Hsame in Hin.
  - by apply Hsame in Hin'.
Qed.

Lemma querystring_order_irrelevant_witness :
  querystring "Austin, TX" (Tuple ["isCondo"; "isTownhouse"; "isCondo"]) ∅
  = querystring "Austin, TX" (Tuple ["isTownhouse"; "isCondo"]) ∅.
Proof.
  apply (querystring_order_irrelevant
           (Tuple ["isCondo"; "isTownhouse"; "isCondo"])
           (Tuple ["isTownhouse"; "isCondo"])).
  intros t. simpl. rewrite !elem_of_cons, elem_of_nil. tauto.
Defined.

(** The flags are merged over [location] and [output]: an element of
    [types] that is called ["location"] (or ["output"]) replaces the
    location searched for (or the output format) by ["true"]; otherwise
    the caller's location and ["json"] are sent. *)
Theorem querystring_location_and_output location types kwargs :
  (kwargs !! "location" = None →
   querystring location types kwargs !! "location" =
     Some (VStr (if bool_decide ("location" ∈ iter types)
                 then "true" else location))) ∧
  (kwargs !! "output" = None →
   querystring location types kwargs !! "output" =
     Some (VStr (if bool_decide ("output" ∈ iter types)
                 then "true" else "json"))).
Proof.
  split; intros Hkw; rewrite querystring_lookup, Hkw, property_types_lookup.
  - case_bool_decide.
    + by rewrite decide_True.
    + rewrite decide_False by done.
      rewrite decide_False by compute_done.
      done.
  - case_bool_decide.
    + by rewrite decide_True.
    + rewrite decide_False by done.
      rewrite decide_False by compute_done.
      done.
Qed.

Example querystring_location_lost :
  querystring "Austin, TX" (Tuple ["location"]) ∅ !! "location"
  = Some (VStr "true").
Proof. compute_done. Qed.

Lemma querystring_location_and_output_witness :
  querystring "Austin, TX" (Tuple ["isCondo"; "location"]) ∅ !! "location"
    = Some (VStr "true") ∧
  querystring "Austin, TX" (Tuple ["isCondo"; "location"]) ∅ !! "output"
    = Some (VStr "json").
Proof.
  split.
  - apply (proj1 (querystring_location_and_output "Austin, TX"
                    (Tuple ["isCondo"; "location"]) ∅)).
    compute_done.
  - apply (proj2 (querystring_location_and_output "Austin, TX"
                    (Tuple ["isCondo"; "location"]) ∅)).
    compute_done.
Defined.

(** ** The search: what comes back *)

Lemma slice_to_prefix {A} (xs : list A) (stop : Z) :
  slice_to xs stop `prefix_of` xs.
Proof. unfold slice_to. destruct (0 <=? stop)%Z; apply prefix_take. Qed.

Lemma slice_to_length {A} (xs : list A) (stop : Z) :
  Z.of_nat (length (slice_to xs stop)) =
  if (0 <=? stop)%Z then Z.min stop (Z.of_nat (length xs))
  else Z.max 0 (Z.of_nat (length xs) + stop).
Proof.
  unfold slice_to. destruct (Z.leb_spec 0 stop); rewrite length_take; lia.
Qed.

Section SearchResults.
Context (w : world) (location : string) (config : Configuration)
        (types : iterable) (kwargs : gmap string value).

(** Whatever the configured limit, negative ones included, the entries
    returned are a prefix of the upstream [results] array: nothing is
    reordered, dropped from the middle or added.  Their number is
    [min k m] for a limit [k >= 0] and [max 0 (m + k)] for [k < 0]. *)
Theorem search_returns_prefix key r d results :
  environ w !! "RAPIDAPI_KEY" = Some key →
  requests_get w search_url (search_headers key)
    (querystring location types kwargs) = Responded r →
  json r = Some (VDict d) →
  d !! "results" = Some (VList results) →
  ∃ returned,
    search_for_properties_by_location w location config types kwargs
      = Return (VList returned) ∧
    returned `prefix_of` results ∧
    Z.of_nat (length returned) =
      if (0 <=? max_search_results config)%Z
      then Z.min (max_search_results config) (Z.of_nat (length results))
      else Z.max 0 (Z.of_nat (length results) + max_search_results config).
Proof.
  intros Henv Hget Hjson Hres.
  exists (slice_to results (max_search_results config)).
  rewrite (search_responded _ _ _ _ _ _ _ Henv Hget).
  unfold response_json. rewrite Hjson. simpl. rewrite Hres. simpl.
  split; [done |]. split; [apply slice_to_prefix | apply slice_to_length].
Qed.

(** When the upstream has no more entries than the limit allows, all of
    them are returned. *)
Theorem search_returns_all_when_few key r d results :
  environ w !! "RAPIDAPI_KEY" = Some key →
  requests_get w search_url (search_headers key)
    (querystring location types kwargs) = Responded r →
  json r = Some (VDict d) →
  d !! "results" = Some (VList results) →
  (Z.of_nat (length results) ≤ max_search_results config)%Z →
  search_for_properties_by_location w location config types kwargs
    = Return (VList results).
Proof.
  intros Henv Hget Hjson Hres Hfew.
  rewrite (search_responded _ _ _ _ _ _ _ Henv Hget).
  unfold response_json. rewrite Hjson. simpl. rewrite Hres. simpl.
  unfold slice_to. destruct (Z.leb_spec 0 (max_search_results config)); [| lia].
  rewrite take_ge by lia. done.
Qed.

(** With a limit [k >= 0] the search never returns more than [k]
    entries, whatever the upstream sends and whatever extra keyword
    arguments - a [limit] among them - the caller passes. *)
Theorem search_never_exceeds_limit returned :
  (0 ≤ max_search_results config)%Z →
  search_for_properties_by_location w location config types kwargs
    = Return (VList returned) →
  (Z.of_nat (length returned) ≤ max_search_results config)%Z.
Proof.
  intros Hk. unfold search_for_properties_by_location.
  destruct (environ_getitem w "RAPIDAPI_KEY") as [key|]; [simpl | done].
  destruct (get _ _ _ _) as [r|]; [simpl | done].
  destruct (response_json r) as [data|]; [simpl | done].
  destruct (getitem data "results") as [[| | | | |xs|]|]; simpl; try done.
  2: by destruct (slice_hashable _).
  intros [= <-].
  pose proof (slice_to_length xs (max_search_results config)) as Hlen.
  destruct (Z.leb_spec 0 (max_search_results config)); lia.
Qed.

(** A search succeeds exactly when the decoded body is a JSON object
    whose [results] entry is an array or a string (a string is sliced
    like an array and handed back as a string). *)
Theorem search_succeeds_iff key r :
  environ w !! "RAPIDAPI_KEY" = Some key →
  requests_get w search_url (search_headers key)
    (querystring location types kwargs) = Responded r →
  (∃ v, search_for_properties_by_location w location config types kwargs
          = Return v) ↔
  ∃ d results, json r = Some (VDict d) ∧ d !! "results" = Some results ∧
               ((∃ xs, results = VList xs) ∨ (∃ s, results = VStr s)).
Proof.
  intros Henv Hget.
  rewrite (search_responded _ _ _ _ _ _ _ Henv Hget).
  unfold response_json, getitem, getslice_to.
  destruct (json r) as [[| | | | | |d]|]; simpl;
    try (split; [by intros [? ?] | by intros (? & ? & ? & _)]).
  destruct (d !! "results") as [results|] eqn:Hres; simpl.
  2: { split; [by intros [? ?] |].
       intros (d' & results' & [= <-] & Hres' & _). by rewrite Hres in Hres'. }
  split.
  - intros [v Hv]. exists d, results. split; [done |]. split; [done |].
    destruct results; try done; eauto.
    by destruct (slice_hashable _).
  - intros (d' & results' & [= <-] & Hres' & Hkind).
    rewrite Hres in Hres'. injection Hres' as <-.
    destruct Hkind as [[xs ->]|[s ->]]; eauto.
Qed.
End SearchResults.

(** The status code of the response plays no part: on one interpreter,
    two responses with the same body give the same result, be the status
    200 or not. *)
Theorem search_ignores_status_code w1 w2 location config types kwargs
    key1 key2 r1 r2 :
  version_info w1 = version_info w2 →
  environ w1 !! "RAPIDAPI_KEY" = Some key1 →
  environ w2 !! "RAPIDAPI_KEY" = Some key2 →
  requests_get w1 search_url (search_headers key1)
    (querystring location types kwargs) = Responded r1 →
  requests_get w2 search_url (search_headers key2)
    (querystring location types kwargs) = Responded r2 →
  json r1 = json r2 →
  search_for_properties_by_location w1 location config types kwargs
  = search_for_properties_by_location w2 location config types kwargs.
Proof.
  intros Hversion Henv1 Henv2 Hget1 Hget2 Hjson.
  rewrite (search_responded _ _ _ _ _ _ _ Henv1 Hget1).
  rewrite (search_responded _ _ _ _ _ _ _ Henv2 Hget2).
  unfold response_json. by rewrite Hjson, Hversion.
Qed.

Lemma search_returns_prefix_witness :
  ∃ returned,
    search_for_properties_by_location world_listings "Austin, TX"
      (config_limit (-1)) default_types ∅ = Return (VList returned) ∧
    returned `prefix_of` [VStr "12 Elm St"; VStr "3 Oak Ave";
                          VStr "9 Pine Rd"; VStr "40 Lake Dr"] ∧
    Z.of_nat (length returned) = 3%Z.
Proof.
  refine (search_returns_prefix world_listings "Austin, TX"
            (config_limit (-1)) default_types ∅ "valid-key"
            (mkResponse 200 (Some (VDict
               {[ "results" := VList [VStr "12 Elm St"; VStr "3 Oak Ave";
                                      VStr "9 Pine Rd"; VStr "40 Lake Dr"];
                  "totalResultCount" := VInt 4 ]})))
            _ [VStr "12 Elm St"; VStr "3 Oak Ave";
               VStr "9 Pine Rd"; VStr "40 Lake Dr"]
            _ _ _ _); reflexivity.
Defined.

Lemma search_returns_all_when_few_witness :
  search_for_properties_by_location world_listings "Austin, TX"
    (config_limit 10) default_types ∅
  = Return (VList [VStr "12 Elm St"; VStr "3 Oak Ave";
                   VStr "9 Pine Rd"; VStr "40 Lake Dr"]).
Proof.
  refine (search_returns_all_when_few world_listings "Austin, TX"
            (config_limit 10) default_types ∅ "valid-key"
            (mkResponse 200 (Some (VDict
               {[ "results" := VList [VStr "12 Elm St"; VStr "3 Oak Ave";
                                      VStr "9 Pine Rd"; VStr "40 Lake Dr"];
                  "totalResultCount" := VInt 4 ]})))
            _ [VStr "12 Elm St"; VStr "3 Oak Ave";
               VStr "9 Pine Rd"; VStr "40 Lake Dr"]
            _ _ _ _ _); try reflexivity.
  simpl. lia.
Defined.

Lemma search_never_exceeds_limit_witness :
  search_for_properties_by_location world_listings "Austin, TX"
    (config_limit 2) default_types {[ "limit" := VInt 50 ]}
    = Return (VList [VStr "12 Elm St"; VStr "3 Oak Ave"]) ∧
  (Z.of_nat (length [VStr "12 Elm St"; VStr "3 Oak Ave"]) ≤ 2)%Z.
Proof.
  split; [reflexivity |].
  refine (search_never_exceeds_limit world_listings "Austin, TX"
            (config_limit 2) default_types {[ "limit" := VInt 50 ]}
            [VStr "12 Elm St"; VStr "3 Oak Ave"] _ _).
  - simpl. lia.
  - reflexivity.
Defined.

Lemma search_succeeds_iff_witness :
  (∃ v, search_for_properties_by_location world_renamed_field "Austin, TX"
          (config_limit 10) default_types ∅ = Return v) ↔
  ∃ d results,
    Some (VDict {[ "listings" := VList [VStr "12 Elm St"] ]}) = Some (VDict d) ∧
    d !! "results" = Some results ∧
    ((∃ xs, results = VList xs) ∨ (∃ s, results = VStr s)).
Proof.
  refine (search_succeeds_iff world_renamed_field "Austin, TX"
            (config_limit 10) default_types ∅ "valid-key"
            (mkResponse 200 (Some (VDict
               {[ "listings" := VList [VStr "12 Elm St"] ]}))) _ _);
    reflexivity.
Defined.

Lemma search_ignores_status_code_witness :
  search_for_properties_by_location world_listings "Austin, TX"
    (config_limit 2) default_types ∅
  = search_for_properties_by_location world_listings_error_status "Austin, TX"
      (config_limit 2) default_types ∅.
Proof.
  refine (search_ignores_status_code world_listings world_listings_error_status
            "Austin, TX" (config_limit 2) default_types ∅
            "valid-key" "valid-key"
            (mkResponse 200 _) (mkResponse 500 _) _ _ _ _ _ _); reflexivity.
Defined.

(** ** The calculator in binary64: errors and NaN *)

(** The calculator raises exactly when the down-payment amount compares
    equal to zero - be it because an input is zero or because the product
    underflows - and [ZeroDivisionError] is the only exception it can
    raise: the division by [(1 + r)^360 - 1] never fails. *)
Theorem calculate_cash_on_cash_raises_iff
    (home_price rent tax_assessed_value down_payment : float) kwargs :
  (calculate_cash_on_cash home_price rent tax_assessed_value down_payment kwargs
     = Raise ZeroDivisionError
   ↔ PrimFloat.is_zero (home_price * down_payment)%float = true) ∧
  (∀ e, calculate_cash_on_cash home_price rent tax_assessed_value
          down_payment kwargs = Raise e →
        e = ZeroDivisionError).
Proof.
  rewrite calculate_cash_on_cash_binary64. cbv zeta. unfold truediv.
  cbn [fis_zero binary64].
  destruct (PrimFloat.is_zero (home_price * down_payment)%float).
  - split; [done |]. by intros e [= <-].
  - split; [done |]. intros e [=].
Qed.

Example calculate_cash_on_cash_underflow :
  calculate_cash_on_cash (F := float)
    1e-200%float 3000%float 400000%float 1e-200%float ∅
  = Raise ZeroDivisionError.
Proof. apply calculate_cash_on_cash_zero_amount. reflexivity. Qed.

(** NaN in, NaN out: when one of the four inputs is NaN and the
    down-payment amount is not zero, the calculator returns NaN; it
    raises nothing. *)
Theorem calculate_cash_on_cash_nan
    (home_price rent tax_assessed_value down_payment : float) kwargs :
  PrimFloat.is_nan home_price || PrimFloat.is_nan rent
    || PrimFloat.is_nan tax_assessed_value
    || PrimFloat.is_nan down_payment = true →
  PrimFloat.is_zero (home_price * down_payment)%float = false →
  calculate_cash_on_cash home_price rent tax_assessed_value down_payment kwargs
  = Return PrimFloat.nan.
Proof.
  intros Hnan Hnonzero.
  rewrite calculate_cash_on_cash_binary64. cbv zeta.
  rewrite (truediv_nonzero (F := float)) by exact Hnonzero.
  f_equal. apply Prim2SF_inj. change (Prim2SF PrimFloat.nan) with S754_nan.
  cbn [fdiv binary64]. apply nan_div.
  repeat (apply orb_prop in Hnan as [Hnan|Hnan]).
  - right. apply nan_mul. left. by apply is_nan_Prim2SF.
  - left. do 3 (apply nan_sub; left). apply nan_mul. left.
    by apply is_nan_Prim2SF.
  - left. do 2 (apply nan_sub; left). apply nan_sub. right.
    apply nan_mul. left. by apply is_nan_Prim2SF.
  - right. apply nan_mul. right. by apply is_nan_Prim2SF.
Qed.

Lemma calculate_cash_on_cash_nan_witness :
  calculate_cash_on_cash (F := float)
    500000%float PrimFloat.nan 400000%float 0.2%float ∅
  = Return PrimFloat.nan.
Proof.
  apply (calculate_cash_on_cash_nan
           500000%float PrimFloat.nan 400000%float 0.2%float ∅);
    reflexivity.
Defined.

(** ** The calculator in exact arithmetic: shape of the result *)

(** The calculator over the reals, with its first two divisions done:
    what is left is the final division by the down-payment amount. *)
Lemma calculate_cash_on_cash_exact_unfold
    (home_price rent tax_assessed_value down_payment : R) kwargs :
  calculate_cash_on_cash home_price rent tax_assessed_value down_payment kwargs
  = truediv (F := R)
      (rent * 12 - tax_assessed_value * 0.009
       - (home_price - home_price * down_payment)
         * (0.065 / 12 * (1 + 0.065 / 12) ^ 360)
         / ((1 + 0.065 / 12) ^ 360 - 1) * 12
       - rent * 0.1 * 12)%R
      (home_price * down_payment)%R.
Proof.
  assert (Q2R 12 = 12%R) as H12 by (unfold Q2R; simpl; lra).
  assert (Q2R 1 = 1%R) as H1 by (unfold Q2R; simpl; lra).
  assert (N.to_nat (Z.to_N (30 * 12)) = 360%nat) as Hn by reflexivity.
  pose proof (growth_exact_gt_1 360 ltac:(lia)) as Hgrowth.
  unfold calculate_cash_on_cash.
  cbn [lit exact]. rewrite H12, H1.
  rewrite (truediv_nonzero (F := R)) by (apply fis_zero_exact_false; lra).
  rewrite bind_Return. cbv zeta.
  cbn [lit fadd fsub fmul fdiv fpow exact]. rewrite Hn.
  rewrite (truediv_nonzero (F := R)) by (apply fis_zero_exact_false; lra).
  rewrite bind_Return. reflexivity.
Qed.

Lemma truediv_exact (x y : R) :
  y ≠ 0%R → truediv (F := R) x y = Return (x / y)%R.
Proof. intros Hy. by rewrite truediv_nonzero by by apply fis_zero_exact_false. Qed.

(** Paying the whole price down leaves no loan: the mortgage term
    vanishes and the return is the net rent less the property tax, over
    the price. *)
Theorem calculate_cash_on_cash_exact_all_cash
    (home_price rent tax_assessed_value : R) kwargs :
  home_price ≠ 0%R →
  calculate_cash_on_cash home_price rent tax_assessed_value 1%R kwargs
  = Return ((rent * 12 - tax_assessed_value * 0.009 - rent * 0.1 * 12)
            / home_price)%R.
Proof.
  intros Hprice. rewrite calculate_cash_on_cash_exact_unfold.
  pose proof (growth_exact_gt_1 360 ltac:(lia)) as Hgrowth.
  rewrite truediv_exact by lra.
  f_equal. set (growth := ((1 + 0.065 / 12) ^ 360)%R) in *.
  field. split; lra.
Qed.

Lemma calculate_cash_on_cash_exact_all_cash_witness :
  calculate_cash_on_cash (F := R) 500000%R 3000%R 400000%R 1%R ∅
  = Return ((3000 * 12 - 400000 * 0.009 - 3000 * 0.1 * 12) / 500000)%R.
Proof.
  apply (calculate_cash_on_cash_exact_all_cash 500000%R 3000%R 400000%R ∅).
  lra.
Defined.
